(** * ClusterHUD: the polling and aggregation core of presto-ui

    A shallow embedding of [presto-ui/src/components/ClusterHUD.jsx]:
    the success and failure callbacks of [refreshLoop], [resetTimer],
    the mount and update effects, and the two history helpers the
    component imports from [../utils].

    JavaScript numbers are IEEE 754 doubles and are modelled by Rocq's
    primitive floats, so that a division by zero yields an infinity or a
    NaN exactly as it does in the browser.  [Date.now()] returns an
    integral number of milliseconds far below 2^53, where the subtraction
    of doubles is exact; timestamps are therefore integers ([Z]) and
    enter double arithmetic where the source divides by [1000.0]. *)

From Stdlib Require Import ZArith Floats Lia.
From stdpp Require Import gmap strings list.

(** ** JavaScript values *)

(** The values that flow through the component: fields of the fetched
    JSON document (absent fields read as [undefined]), the initial
    [null] of the [useState] cells, and numbers. *)
Inductive jsval : Type :=
| JUndefined
| JNull
| JNum (x : float).

(** The ToNumber conversion applied by the arithmetic operators. *)
Definition ToNumber (v : jsval) : float :=
  match v with
  | JUndefined => nan
  | JNull => 0%float
  | JNum x => x
  end.

(** [a - b] on arbitrary values. *)
Definition js_sub (a b : jsval) : float := (ToNumber a - ToNumber b)%float.

(** Property access [o.k] on a parsed JSON object. *)
Definition prop (o : gmap string jsval) (k : string) : jsval :=
  default JUndefined (o !! k).

(** The double nearest to an integer (round to nearest, ties to even). *)
Definition float_of_Z (z : Z) : float :=
  SF2Prim (binary_normalize prec emax z 0 false).

(** The global [isFinite] and [isNaN] on numbers. *)
Definition isFinite (x : float) : bool :=
  match Prim2SF x with
  | S754_zero _ | S754_finite _ _ _ => true
  | S754_infinity _ | S754_nan => false
  end.

Definition isNaN (x : float) : bool :=
  match Prim2SF x with
  | S754_nan => true
  | _ => false
  end.

(** A sample that carries no data: [undefined] or NaN. *)
Definition no_data (v : jsval) : bool :=
  match v with
  | JUndefined => true
  | JNull => false
  | JNum x => isNaN x
  end.

(** ** The history helpers imported from [../utils] *)

Module Utils.
Section Utils.
Variable maxLength : nat.
Variable alpha : float.

(** Modelled from the spec: the trimming step shared by both helpers of
    [../utils], a file that is not part of the sources at hand.  The
    series is cut down to its most recent [maxLength] samples, the oldest
    being dropped first. *)
Definition trim (series : list jsval) : list jsval :=
  drop (length series - maxLength) series.

(** Modelled from the spec: [addToHistory] of [../utils] (Raw mode).
    The new series is the previous one with the raw value appended, then
    trimmed; the argument is not mutated. *)
Definition addToHistory (value : jsval) (valuesArray : list jsval) : list jsval :=
  trim (valuesArray ++ [value]).

(** Modelled from the spec: [addExponentiallyWeightedToHistory] of
    [../utils] (ExponentiallyWeighted mode).  On an empty series the
    appended sample is the raw value; otherwise it is
    [alpha * rawValue + (1 - alpha) * lastSample], where [lastSample] is
    the most recently appended sample.  The result is trimmed as in Raw
    mode. *)
Definition addExponentiallyWeightedToHistory
    (value : jsval) (valuesArray : list jsval) : list jsval :=
  match last valuesArray with
  | None => trim (valuesArray ++ [value])
  | Some lastSample =>
      trim (valuesArray ++
            [JNum (alpha * ToNumber value + (1 - alpha) * ToNumber lastSample)%float])
  end.

End Utils.
End Utils.

(** ** The React state of the component *)

(** One field per [useState] cell, in the order of the source. *)
Record HudState : Type := {
  runningQueries : list jsval;
  queuedQueries : list jsval;
  blockedQueries : list jsval;
  activeWorkers : list jsval;
  runningDrivers : list jsval;
  reservedMemory : list jsval;
  rowInputRate : list jsval;
  byteInputRate : list jsval;
  perWorkerCpuTimeRate : list jsval;
  lastRender : option Z;
  lastRefresh : option Z;
  lastInputRows : jsval;
  lastInputBytes : jsval;
  lastCpuTime : jsval;
}.

(** The initial values handed to [useState]. *)
Definition initState : HudState := {|
  runningQueries := [];
  queuedQueries := [];
  blockedQueries := [];
  activeWorkers := [];
  runningDrivers := [];
  reservedMemory := [];
  rowInputRate := [];
  byteInputRate := [];
  perWorkerCpuTimeRate := [];
  lastRender := None;
  lastRefresh := None;
  lastInputRows := JNull;
  lastInputBytes := JNull;
  lastCpuTime := JNull;
|}.

(** ** The callbacks of [refreshLoop] *)

Section RefreshLoop.
Variable maxLength : nat.
Variable alpha : float.

Local Abbreviation addToHistory := (Utils.addToHistory maxLength).
Local Abbreviation addExponentiallyWeightedToHistory :=
  (Utils.addExponentiallyWeightedToHistory maxLength alpha).

(** A callback created during a render closes over the values that the
    state cells had in that render.  [scope] below is that render's
    state: the [lastRefresh], [lastInputRows], [rowInputRate], ... that
    the body of [refreshLoop] reads are the fields of [scope], whereas
    the functional updates [setX(prev => ...)] receive the state that is
    current when the callback runs. *)

Definition rowsInputSinceRefresh (scope : HudState) (clusterState : gmap string jsval) : float :=
  js_sub (prop clusterState "totalInputRows") (lastInputRows scope).

Definition bytesInputSinceRefresh (scope : HudState) (clusterState : gmap string jsval) : float :=
  js_sub (prop clusterState "totalInputBytes") (lastInputBytes scope).

Definition cpuTimeSinceRefresh (scope : HudState) (clusterState : gmap string jsval) : float :=
  js_sub (prop clusterState "totalCpuTimeSecs") (lastCpuTime scope).

(** [(Date.now() - lastRefresh) / 1000.0], for [lastRefresh = t]. *)
Definition secsSinceRefresh (t now : Z) : float :=
  (float_of_Z (now - t) / 1000)%float.

(** The three raw rates handed to the smoothing helper. *)
Definition rowRate (scope : HudState) (clusterState : gmap string jsval) (t now : Z) : float :=
  (rowsInputSinceRefresh scope clusterState / secsSinceRefresh t now)%float.

Definition byteRate (scope : HudState) (clusterState : gmap string jsval) (t now : Z) : float :=
  (bytesInputSinceRefresh scope clusterState / secsSinceRefresh t now)%float.

Definition perWorkerCpuRate (scope : HudState) (clusterState : gmap string jsval) (t now : Z) : float :=
  ((cpuTimeSinceRefresh scope clusterState / ToNumber (prop clusterState "activeWorkers"))
   / secsSinceRefresh t now)%float.

(** The locals [newRowInputRate], [newByteInputRate] and
    [newPerWorkerCpuTimeRate]: empty arrays, overwritten inside
    [if (lastRefresh !== null)]. *)
Definition newRowInputRate (scope : HudState) (clusterState : gmap string jsval) (now : Z)
    : list jsval :=
  match lastRefresh scope with
  | Some t =>
      addExponentiallyWeightedToHistory
        (JNum (rowRate scope clusterState t now)) (rowInputRate scope)
  | None => []
  end.

Definition newByteInputRate (scope : HudState) (clusterState : gmap string jsval) (now : Z)
    : list jsval :=
  match lastRefresh scope with
  | Some t =>
      addExponentiallyWeightedToHistory
        (JNum (byteRate scope clusterState t now)) (byteInputRate scope)
  | None => []
  end.

Definition newPerWorkerCpuTimeRate (scope : HudState) (clusterState : gmap string jsval) (now : Z)
    : list jsval :=
  match lastRefresh scope with
  | Some t =>
      addExponentiallyWeightedToHistory
        (JNum (perWorkerCpuRate scope clusterState t now)) (perWorkerCpuTimeRate scope)
  | None => []
  end.

(** The success callback of [$.get('/v1/cluster', ...)], as a function of
    the state [st] that is current when it runs.  [now] and [now'] are the
    two readings of [Date.now()]. *)
Definition refreshLoop_success
    (scope : HudState) (clusterState : gmap string jsval) (now now' : Z)
    (st : HudState) : HudState := {|
  runningQueries := addToHistory (prop clusterState "runningQueries") (runningQueries st);
  queuedQueries := addToHistory (prop clusterState "queuedQueries") (queuedQueries st);
  blockedQueries := addToHistory (prop clusterState "blockedQueries") (blockedQueries st);
  activeWorkers := addToHistory (prop clusterState "activeWorkers") (activeWorkers st);
  runningDrivers :=
    addExponentiallyWeightedToHistory (prop clusterState "runningDrivers") (runningDrivers st);
  reservedMemory :=
    addExponentiallyWeightedToHistory (prop clusterState "reservedMemory") (reservedMemory st);
  rowInputRate := newRowInputRate scope clusterState now;
  byteInputRate := newByteInputRate scope clusterState now;
  perWorkerCpuTimeRate := newPerWorkerCpuTimeRate scope clusterState now;
  lastRender := lastRender st;
  lastRefresh := Some now';
  lastInputRows := prop clusterState "totalInputRows";
  lastInputBytes := prop clusterState "totalInputBytes";
  lastCpuTime := prop clusterState "totalCpuTimeSecs";
|}.

(** One run of the success callback: the scope it closed over, the
    snapshot received and the two clock readings. *)
Record Poll : Type := {
  poll_scope : HudState;
  poll_snapshot : gmap string jsval;
  poll_now : Z;
  poll_now' : Z;
}.

Definition apply_poll (st : HudState) (p : Poll) : HudState :=
  refreshLoop_success (poll_scope p) (poll_snapshot p) (poll_now p) (poll_now' p) st.

(** The failure callback only calls [resetTimer]: the React state is not
    touched. *)
Definition refreshLoop_fail (st : HudState) : HudState := st.

(** ** The update effect and its render throttle *)

(** The nine [sparkline] calls: element id and series drawn. *)
Definition sparklines (st : HudState) : list (string * list jsval) :=
  [ ("running-queries-sparkline", runningQueries st);
    ("blocked-queries-sparkline", blockedQueries st);
    ("queued-queries-sparkline", queuedQueries st);
    ("active-workers-sparkline", activeWorkers st);
    ("running-drivers-sparkline", runningDrivers st);
    ("reserved-memory-sparkline", reservedMemory st);
    ("row-input-rate-sparkline", rowInputRate st);
    ("byte-input-rate-sparkline", byteInputRate st);
    ("cpu-time-rate-sparkline", perWorkerCpuTimeRate st) ].

(** [lastRender === null || (Date.now() - lastRender) >= 1000]. *)
Definition renderPermitted (lastRender : option Z) (now : Z) : bool :=
  match lastRender with
  | None => true
  | Some t => (1000 <=? now - t)%Z
  end.

Definition setLastRender (renderTimestamp : Z) (st : HudState) : HudState := {|
  runningQueries := runningQueries st;
  queuedQueries := queuedQueries st;
  blockedQueries := blockedQueries st;
  activeWorkers := activeWorkers st;
  runningDrivers := runningDrivers st;
  reservedMemory := reservedMemory st;
  rowInputRate := rowInputRate st;
  byteInputRate := byteInputRate st;
  perWorkerCpuTimeRate := perWorkerCpuTimeRate st;
  lastRender := Some renderTimestamp;
  lastRefresh := lastRefresh st;
  lastInputRows := lastInputRows st;
  lastInputBytes := lastInputBytes st;
  lastCpuTime := lastCpuTime st;
|}.

(** The update effect.  It lists [lastRender] and every series among its
    dependencies, so it always runs with the values of the latest render.
    [now] is the reading of [Date.now()] in the test and [now'] the one
    stored in [renderTimestamp].  The result is the list of charts drawn
    and the state after the effect. *)
Definition updateEffect (now now' : Z) (st : HudState)
    : list (string * list jsval) * HudState :=
  if renderPermitted (lastRender st) now
  then (sparklines st, setLastRender now' st)
  else ([], st).

(** ** The mounted component: timers, requests and closures *)

(** A pending [setTimeout]: its delay, and the render scope of the
    [refreshLoop] that its callback will call. *)
Record Timeout : Type := {
  delay : Z;
  callee : HudState;
}.

(** A function created during a render is represented by the state of
    that render, the scope it closed over.

    [useCallback(fn, deps)]: the function created by the current render is
    returned when none is memoised yet or when a dependency differs from
    the memoised ones; otherwise the memoised function is returned. *)
Definition useCallback
    (memo : option HudState) (depsChanged : bool) (current : HudState) : HudState :=
  match memo with
  | Some kept => if depsChanged then current else kept
  | None => current
  end.

(** The component between two events.  [resetTimerMemo] is the hook cell
    of [useCallback] for [resetTimer].  [requests] holds, for each [$.get]
    still in flight, the scope that its callbacks closed over; [timers] is
    the browser's table of the pending timeouts set by this component. *)
Record Component : Type := {
  hud : HudState;
  resetTimerMemo : option HudState;
  timeoutIdRef : option nat;
  timers : gmap nat Timeout;
  nextTimerId : nat;
  requests : list HudState;
}.

(** [resetTimer] is declared with the empty dependency list [[]]: no
    dependency ever changes, so every render returns the function that
    the first render created.  This is the scope of the [resetTimer] that
    any code of the component can reach. *)
Definition resetTimerScope (c : Component) : HudState :=
  useCallback (resetTimerMemo c) false (hud c).

(** A render with the current state.  It also creates a new
    [refreshLoop], whose dependency list names the state cells read by the
    callback; that function is stored nowhere: the only callers of
    [refreshLoop] are the mount effect and the timer callback of
    [resetTimer], which both see the [refreshLoop] of their own render. *)
Definition render (c : Component) : Component :=
  {| hud := hud c;
     resetTimerMemo := Some (resetTimerScope c);
     timeoutIdRef := timeoutIdRef c;
     timers := timers c;
     nextTimerId := nextTimerId c;
     requests := requests c |}.

(** [clearTimeout(id)]: no effect on [null] or on an id that is not
    pending. *)
Definition clearTimeout (id : option nat) (ts : gmap nat Timeout) : gmap nat Timeout :=
  match id with
  | Some i => delete i ts
  | None => ts
  end.

(** [resetTimer]: the timer callback calls the [refreshLoop] of the
    render in which [resetTimer] was created. *)
Definition resetTimer (c : Component) : Component :=
  let cleared := clearTimeout (timeoutIdRef c) (timers c) in
  let id := nextTimerId c in
  {| hud := hud c;
     resetTimerMemo := resetTimerMemo c;
     timeoutIdRef := Some id;
     timers := <[id := {| delay := 1000; callee := resetTimerScope c |}]> cleared;
     nextTimerId := S id;
     requests := requests c |}.

(** Entry of [refreshLoop]: the pending timer is cleared and the request
    is issued; the callbacks run when the response arrives. *)
Definition refreshLoop (scope : HudState) (c : Component) : Component :=
  {| hud := hud c;
     resetTimerMemo := resetTimerMemo c;
     timeoutIdRef := timeoutIdRef c;
     timers := clearTimeout (timeoutIdRef c) (timers c);
     nextTimerId := nextTimerId c;
     requests := requests c ++ [scope] |}.

Definition with_hud (st : HudState) (c : Component) : Component :=
  {| hud := st;
     resetTimerMemo := resetTimerMemo c;
     timeoutIdRef := timeoutIdRef c;
     timers := timers c;
     nextTimerId := nextTimerId c;
     requests := requests c |}.

Definition with_requests (rs : list HudState) (c : Component) : Component :=
  {| hud := hud c;
     resetTimerMemo := resetTimerMemo c;
     timeoutIdRef := timeoutIdRef c;
     timers := timers c;
     nextTimerId := nextTimerId c;
     requests := rs |}.

Definition with_timers (ts : gmap nat Timeout) (c : Component) : Component :=
  {| hud := hud c;
     resetTimerMemo := resetTimerMemo c;
     timeoutIdRef := timeoutIdRef c;
     timers := ts;
     nextTimerId := nextTimerId c;
     requests := requests c |}.

(** The first render. *)
Definition firstRender : Component :=
  render
    {| hud := initState;
       resetTimerMemo := None;
       timeoutIdRef := None;
       timers := ∅;
       nextTimerId := 1;
       requests := [] |}.

(** The mount effect, run once after the first render (its dependency
    list is empty): it calls the [refreshLoop] of that render. *)
Definition mount : Component :=
  refreshLoop (hud firstRender) firstRender.

(** The cleanup of the mount effect. *)
Definition unmount (c : Component) : Component :=
  with_timers (clearTimeout (timeoutIdRef c) (timers c)) c.

(** What can happen to a mounted component: the response to the oldest
    request arrives or the request fails, a pending timer fires, or the
    component renders again and runs its update effect. *)
Inductive event : Type :=
| FetchDone (clusterState : gmap string jsval) (now now' : Z)
| FetchFail
| TimerFired (id : nat)
| Rendered (now now' : Z).

Definition step (c : Component) (e : event) : Component :=
  match e with
  | FetchDone clusterState now now' =>
      match requests c with
      | scope :: rest =>
          render
            (resetTimer
               (with_hud (refreshLoop_success scope clusterState now now' (hud c))
                  (with_requests rest c)))
      | [] => c
      end
  | FetchFail =>
      match requests c with
      | _ :: rest =>
          resetTimer (with_hud (refreshLoop_fail (hud c)) (with_requests rest c))
      | [] => c
      end
  | TimerFired id =>
      match timers c !! id with
      | Some tm => refreshLoop (callee tm) (with_timers (delete id (timers c)) c)
      | None => c
      end
  | Rendered now now' => with_hud (updateEffect now now' (hud c)).2 (render c)
  end.

Definition run (es : list event) : Component := foldl step mount es.

End RefreshLoop.

(** ** The figures of the markup *)

(** [series[series.length - 1]]: the last sample, [undefined] on an
    empty array. *)
Definition latest (series : list jsval) : jsval :=
  default JUndefined (last series).

(** The nine figures of the returned markup, in the order of the source:
    the title of each and the value read from the state.  The values of
    the rate, driver and memory figures are handed to the formatters of
    [../utils]; what is listed here is the value before formatting. *)
Definition statTexts (st : HudState) : list (string * jsval) :=
  [ ("Running queries", latest (runningQueries st));
    ("Active workers", latest (activeWorkers st));
    ("Rows/sec", latest (rowInputRate st));
    ("Queued queries", latest (queuedQueries st));
    ("Runnable drivers", latest (runningDrivers st));
    ("Bytes/sec", latest (byteInputRate st));
    ("Blocked Queries", latest (blockedQueries st));
    ("Reserved Memory (B)", latest (reservedMemory st));
    ("Worker Parallelism", latest (perWorkerCpuTimeRate st)) ].

(** The nine blocks of the markup: the id of the chart element of each
    block and the figure printed beside it (before formatting). *)
Definition statBlocks (st : HudState) : list (string * jsval) :=
  [ ("running-queries-sparkline", latest (runningQueries st));
    ("active-workers-sparkline", latest (activeWorkers st));
    ("row-input-rate-sparkline", latest (rowInputRate st));
    ("queued-queries-sparkline", latest (queuedQueries st));
    ("running-drivers-sparkline", latest (runningDrivers st));
    ("byte-input-rate-sparkline", latest (byteInputRate st));
    ("blocked-queries-sparkline", latest (blockedQueries st));
    ("reserved-memory-sparkline", latest (reservedMemory st));
    ("cpu-time-rate-sparkline", latest (perWorkerCpuTimeRate st)) ].

(** The nine series held by the state. *)
Definition all_series (st : HudState) : list (list jsval) :=
  [ runningQueries st; queuedQueries st; blockedQueries st; activeWorkers st;
    runningDrivers st; reservedMemory st;
    rowInputRate st; byteInputRate st; perWorkerCpuTimeRate st ].

(** ** Redraws along a history *)

Section Redraws.
Variable maxLength : nat.
Variable alpha : float.

(** Whether an event makes the update effect draw the charts. *)
Definition redraws (c : Component) (e : event) : bool :=
  match e with
  | Rendered now _ => renderPermitted (lastRender (hud c)) now
  | _ => false
  end.

(** No event of [es], run from [c], draws the charts. *)
Fixpoint no_redraw (c : Component) (es : list event) : bool :=
  match es with
  | [] => true
  | e :: rest => negb (redraws c e) && no_redraw (step maxLength alpha c e) rest
  end.

End Redraws.

(** ** Sample inputs *)

Module Sample.

(** Capacity and smoothing weight used in the worked examples. *)
Definition maxLength : nat := 100.
(** The double nearest to 0.2. *)
Definition alpha : float := 0x1.999999999999ap-3%float.

(** Three consecutive snapshots of a two-worker cluster. *)
Definition poll1 : gmap string jsval :=
  list_to_map
    [ ("runningQueries", JNum 3); ("queuedQueries", JNum 1); ("blockedQueries", JNum 0);
      ("activeWorkers", JNum 2); ("runningDrivers", JNum 16);
      ("reservedMemory", JNum 4096);
      ("totalInputRows", JNum 1000); ("totalInputBytes", JNum 500000);
      ("totalCpuTimeSecs", JNum 10) ].

Definition poll2 : gmap string jsval :=
  list_to_map
    [ ("runningQueries", JNum 4); ("queuedQueries", JNum 0); ("blockedQueries", JNum 0);
      ("activeWorkers", JNum 2); ("runningDrivers", JNum 20);
      ("reservedMemory", JNum 8192);
      ("totalInputRows", JNum 1500); ("totalInputBytes", JNum 700000);
      ("totalCpuTimeSecs", JNum 12) ].

Definition poll3 : gmap string jsval :=
  list_to_map
    [ ("runningQueries", JNum 2); ("queuedQueries", JNum 0); ("blockedQueries", JNum 0);
      ("activeWorkers", JNum 2); ("runningDrivers", JNum 12);
      ("reservedMemory", JNum 2048);
      ("totalInputRows", JNum 2000); ("totalInputBytes", JNum 900000);
      ("totalCpuTimeSecs", JNum 14) ].

(** The second snapshot, taken while no worker is registered. *)
Definition poll2_no_workers : gmap string jsval :=
  <["activeWorkers" := JNum 0]> poll2.

(** A snapshot that follows the data contract of the specification: the
    gauge is called [reservedMemoryBytes]. *)
Definition poll_contract : gmap string jsval :=
  <["reservedMemoryBytes" := JNum 4096]> (delete "reservedMemory" poll1).

(** The state of the render that follows a first poll answered with
    [poll1] at time 0. *)
Definition after_poll1 : HudState :=
  refreshLoop_success maxLength alpha initState poll1 0 0 initState.

(** A state whose rate series hold one sample each. *)
Definition with_rates : HudState :=
  refreshLoop_success maxLength alpha after_poll1 poll2 1000 1000 after_poll1.

End Sample.

(** ** The states of the polling loop *)

(** The timer set by [resetTimer]. *)
Definition the_timer : Timeout := {| delay := 1000; callee := initState |}.

Definition rates_empty (st : HudState) : Prop :=
  rowInputRate st = [] /\ byteInputRate st = [] /\ perWorkerCpuTimeRate st = [].

Definition raw_empty (st : HudState) : Prop :=
  runningQueries st = [] /\ queuedQueries st = [] /\ blockedQueries st = []
  /\ activeWorkers st = [] /\ runningDrivers st = [] /\ reservedMemory st = [].

(** The loop is either waiting for the response of its one request, or
    for its one timer. *)
Inductive phase (c : Component) : Prop :=
| fetching :
    requests c = [initState] -> timers c = ∅ -> phase c
| sleeping (id : nat) :
    requests c = [] -> timeoutIdRef c = Some id -> timers c = {[id := the_timer]} ->
    phase c.

Definition loop_invariant (c : Component) : Prop :=
  resetTimerMemo c = Some initState /\ phase c /\ rates_empty (hud c).

(** Every pending timer is the one recorded in [timeoutIdRef.current]. *)
Definition timer_tracked (c : Component) : Prop :=
  forall id, is_Some (timers c !! id) -> timeoutIdRef c = Some id.

Definition is_success (e : event) : bool :=
  match e with
  | FetchDone _ _ _ => true
  | _ => false
  end.

(** * Properties *)

(** ** Doubles: divisions by zero and NaN *)

Lemma isFinite_div_l (x y : float) :
  isFinite x = false -> isFinite (x / y) = false.
Proof.
  unfold isFinite. rewrite div_spec.
  destruct (Prim2SF x) as [sx|sx| |sx mx ex]; try discriminate; intros _;
    destruct (Prim2SF y) as [sy|sy| |sy my ey]; reflexivity.
Qed.

Lemma isFinite_div_zero (x : float) : isFinite (x / 0) = false.
Proof.
  unfold isFinite. rewrite div_spec.
  change (Prim2SF 0) with (S754_zero false).
  destruct (Prim2SF x) as [sx|sx| |sx mx ex]; reflexivity.
Qed.

Lemma isNaN_mul_r (a x : float) : isNaN x = true -> isNaN (a * x) = true.
Proof.
  unfold isNaN. rewrite mul_spec.
  destruct (Prim2SF x); try discriminate; intros _.
  destruct (Prim2SF a); reflexivity.
Qed.

Lemma isNaN_add_l (x y : float) : isNaN x = true -> isNaN (x + y) = true.
Proof.
  unfold isNaN. rewrite add_spec.
  destruct (Prim2SF x); try discriminate; intros _. reflexivity.
Qed.

(** ** Worked examples *)

Example float_of_Z_examples :
  float_of_Z 1000 = 1000%float /\ float_of_Z 0 = 0%float /\ float_of_Z (-250) = (-250)%float.
Proof. repeat split; reflexivity. Qed.

Example addToHistory_evicts_oldest :
  Utils.addToHistory 3 (JNum 4) [JNum 1; JNum 2; JNum 3] = [JNum 2; JNum 3; JNum 4].
Proof. reflexivity. Qed.

Example addExponentiallyWeightedToHistory_smooths :
  Utils.addExponentiallyWeightedToHistory 3 0.5 (JNum 4) [JNum 2] = [JNum 2; JNum 3]
  /\ Utils.addExponentiallyWeightedToHistory 3 0.5 (JNum 4) [] = [JNum 4].
Proof. split; reflexivity. Qed.

(** A callback that closed over the state left by [Sample.poll1] at
    time 0 and receives [Sample.poll2] at time 1000. *)
Example second_poll_rates :
  rowInputRate Sample.with_rates = [JNum 500]
  /\ byteInputRate Sample.with_rates = [JNum 200000]
  /\ perWorkerCpuTimeRate Sample.with_rates = [JNum 1]
  /\ runningQueries Sample.with_rates = [JNum 3; JNum 4]
  /\ lastRefresh Sample.with_rates = Some 1000%Z.
Proof. repeat split; reflexivity. Qed.

(** ** Bounded histories *)

Section History.
Variable maxLength : nat.

Lemma trim_length (l : list jsval) :
  length (Utils.trim maxLength l) = min (length l) maxLength.
Proof. unfold Utils.trim. rewrite length_drop. lia. Qed.

Lemma trim_short (l : list jsval) :
  length l <= maxLength -> Utils.trim maxLength l = l.
Proof.
  intros H. unfold Utils.trim.
  replace (length l - maxLength) with 0 by lia. reflexivity.
Qed.

Lemma trim_app_trim (a b : list jsval) :
  Utils.trim maxLength (Utils.trim maxLength a ++ b) = Utils.trim maxLength (a ++ b).
Proof.
  destruct (Nat.le_gt_cases (length a) maxLength) as [Hle|Hgt].
  - rewrite (trim_short a) by exact Hle. reflexivity.
  - unfold Utils.trim at 1 3.
    rewrite !length_app, trim_length, Nat.min_r by lia.
    unfold Utils.trim.
    replace (length a + length b - maxLength)
      with ((length a - maxLength) + (maxLength + length b - maxLength)) by lia.
    rewrite <- drop_drop.
    rewrite (drop_app_le a b) by lia. reflexivity.
Qed.

Lemma addToHistory_length (v : jsval) (s : list jsval) :
  length (Utils.addToHistory maxLength v s) = min (S (length s)) maxLength.
Proof.
  unfold Utils.addToHistory.
  rewrite trim_length, length_app, Nat.add_1_r. reflexivity.
Qed.

Lemma addExponentiallyWeightedToHistory_length (alpha : float) (v : jsval) (s : list jsval) :
  length (Utils.addExponentiallyWeightedToHistory maxLength alpha v s)
  = min (S (length s)) maxLength.
Proof.
  unfold Utils.addExponentiallyWeightedToHistory.
  destruct (last s); rewrite trim_length, length_app, Nat.add_1_r; reflexivity.
Qed.

(** Appending a list of raw values one by one amounts to one trim. *)
Lemma foldl_addToHistory (vs s : list jsval) :
  length s <= maxLength ->
  foldl (fun acc v => Utils.addToHistory maxLength v acc) s vs
  = Utils.trim maxLength (s ++ vs).
Proof.
  revert s. induction vs as [|v vs IH]; intros s Hs; simpl.
  - rewrite app_nil_r. symmetry. apply trim_short, Hs.
  - rewrite IH.
    + unfold Utils.addToHistory. rewrite trim_app_trim, <- app_assoc. reflexivity.
    + rewrite addToHistory_length. lia.
Qed.

Lemma trim_nil_app (vs : list jsval) :
  Utils.trim maxLength ([] ++ vs) = drop (length vs - maxLength) vs.
Proof. reflexivity. Qed.

(** The raw series of the state after a run of successful polls are the
    folds of [addToHistory] over the fields of the snapshots. *)
Section RawSeries.
Variable alpha : float.
Variable field : HudState -> list jsval.
Variable key : string.
Hypothesis field_step : forall st p,
  field (apply_poll maxLength alpha st p)
  = Utils.addToHistory maxLength (prop (poll_snapshot p) key) (field st).

Lemma raw_series_foldl (polls : list Poll) (st : HudState) :
  field (foldl (apply_poll maxLength alpha) st polls)
  = foldl (fun acc v => Utils.addToHistory maxLength v acc) (field st)
      (map (fun p => prop (poll_snapshot p) key) polls).
Proof.
  revert st. induction polls as [|p polls IH]; intros st; simpl.
  - reflexivity.
  - rewrite IH, field_step. reflexivity.
Qed.

Lemma raw_series_from_init (polls : list Poll) :
  field initState = [] ->
  field (foldl (apply_poll maxLength alpha) initState polls)
  = drop (length polls - maxLength) (map (fun p => prop (poll_snapshot p) key) polls).
Proof.
  intros Hinit. rewrite raw_series_foldl, Hinit.
  rewrite foldl_addToHistory by (simpl; lia).
  rewrite trim_nil_app, length_map. reflexivity.
Qed.

End RawSeries.

(** C6: appending N raw values one by one to an empty history of
    capacity [maxLength] gives a series of length [min N maxLength] that
    consists of the last [maxLength] values appended, in the order of
    their appending; the length never exceeds the capacity, after any
    number of appends and for any series appended to.  The four raw
    series of the component are built this way from the snapshots of the
    successful polls. *)
Theorem bounded_history (alpha : float) (vs : list jsval) (polls : list Poll) :
  let append := fun acc v => Utils.addToHistory maxLength v acc in
  let series := foldl append [] vs in
  let final := foldl (apply_poll maxLength alpha) initState polls in
  let recent := fun key =>
    drop (length polls - maxLength) (map (fun p => prop (poll_snapshot p) key) polls) in
  length series = min (length vs) maxLength
  /\ series = drop (length vs - maxLength) vs
  /\ (forall n, length (foldl append [] (take n vs)) <= maxLength)
  /\ (forall v s, length (Utils.addToHistory maxLength v s) <= maxLength)
  /\ runningQueries final = recent "runningQueries"
  /\ queuedQueries final = recent "queuedQueries"
  /\ blockedQueries final = recent "blockedQueries"
  /\ activeWorkers final = recent "activeWorkers".
Proof.
  intros append series final recent.
  assert (Hfold : forall l, foldl append [] l = drop (length l - maxLength) l).
  { intros l. unfold append. rewrite foldl_addToHistory by (simpl; lia).
    apply trim_nil_app. }
  split; [|split; [|split; [|split]]].
  - unfold series. rewrite Hfold, length_drop. lia.
  - apply Hfold.
  - intros n. rewrite Hfold, length_drop. lia.
  - intros v s. rewrite addToHistory_length. lia.
  - unfold final, recent.
    repeat split; apply raw_series_from_init; reflexivity.
Qed.

End History.

(** ** The rate computation of the success callback *)

(** The lemmas of this section describe the block guarded by
    [lastRefresh !== null] for an arbitrary scope.  The callbacks that the
    mounted component runs all closed over the first render, where
    [lastRefresh] is null (see [mounted_loop_is_first_render]): what the
    component itself does on a poll is stated further down, on [run]. *)

Section Rates.
Variable maxLength : nat.
Variable alpha : float.

Local Abbreviation addExponentiallyWeightedToHistory :=
  (Utils.addExponentiallyWeightedToHistory maxLength alpha).

Lemma newRowInputRate_some scope clusterState t now :
  lastRefresh scope = Some t ->
  newRowInputRate maxLength alpha scope clusterState now
  = addExponentiallyWeightedToHistory
      (JNum (rowRate scope clusterState t now)) (rowInputRate scope).
Proof. intros H. unfold newRowInputRate. rewrite H. reflexivity. Qed.

Lemma newByteInputRate_some scope clusterState t now :
  lastRefresh scope = Some t ->
  newByteInputRate maxLength alpha scope clusterState now
  = addExponentiallyWeightedToHistory
      (JNum (byteRate scope clusterState t now)) (byteInputRate scope).
Proof. intros H. unfold newByteInputRate. rewrite H. reflexivity. Qed.

Lemma newPerWorkerCpuTimeRate_some scope clusterState t now :
  lastRefresh scope = Some t ->
  newPerWorkerCpuTimeRate maxLength alpha scope clusterState now
  = addExponentiallyWeightedToHistory
      (JNum (perWorkerCpuRate scope clusterState t now)) (perWorkerCpuTimeRate scope).
Proof. intros H. unfold newPerWorkerCpuTimeRate. rewrite H. reflexivity. Qed.

Lemma addExponentiallyWeightedToHistory_nil (v : jsval) :
  0 < maxLength -> addExponentiallyWeightedToHistory v [] = [v].
Proof.
  intros H. unfold Utils.addExponentiallyWeightedToHistory. simpl.
  apply trim_short. simpl. lia.
Qed.

Lemma addToHistory_nil (v : jsval) :
  0 < maxLength -> Utils.addToHistory maxLength v [] = [v].
Proof. intros H. unfold Utils.addToHistory. apply trim_short. simpl. lia. Qed.

Lemma secsSinceRefresh_same (t : Z) : secsSinceRefresh t t = 0%float.
Proof. unfold secsSinceRefresh. rewrite Z.sub_diag. reflexivity. Qed.

(** The rate block, for a callback whose scope holds a previous
    snapshot ([lastRefresh] is not null): the row rate is the difference
    of [totalInputRows] between the snapshot and the scope divided by the
    seconds elapsed since [lastRefresh], the byte rate is the same
    quotient for [totalInputBytes], and these are the values handed to the
    rate series.  With 1000 rows at time 0 and 1500 rows at time 1000 ms
    the row rate is exactly 500. *)
Theorem rate_correctness scope clusterState t now now' st :
  lastRefresh scope = Some t ->
  let st' := refreshLoop_success maxLength alpha scope clusterState now now' st in
  let elapsedSeconds := (float_of_Z (now - t) / 1000)%float in
  rowRate scope clusterState t now
  = ((ToNumber (prop clusterState "totalInputRows") - ToNumber (lastInputRows scope))
     / elapsedSeconds)%float
  /\ byteRate scope clusterState t now
     = ((ToNumber (prop clusterState "totalInputBytes") - ToNumber (lastInputBytes scope))
        / elapsedSeconds)%float
  /\ rowInputRate st'
     = addExponentiallyWeightedToHistory
         (JNum (rowRate scope clusterState t now)) (rowInputRate scope)
  /\ byteInputRate st'
     = addExponentiallyWeightedToHistory
         (JNum (byteRate scope clusterState t now)) (byteInputRate scope)
  /\ (lastInputRows scope = JNum 1000 ->
      prop clusterState "totalInputRows" = JNum 1500 ->
      t = 0%Z -> now = 1000%Z ->
      rowRate scope clusterState t now = 500%float
      /\ (rowInputRate scope = [] -> 0 < maxLength -> rowInputRate st' = [JNum 500])).
Proof.
  intros Ht st' secs.
  assert (Hex : lastInputRows scope = JNum 1000 ->
                prop clusterState "totalInputRows" = JNum 1500 ->
                t = 0%Z -> now = 1000%Z ->
                rowRate scope clusterState t now = 500%float).
  { intros Hprev Hcur Ht0 Hnow.
    unfold rowRate, rowsInputSinceRefresh, secsSinceRefresh, js_sub.
    rewrite Hprev, Hcur, Ht0, Hnow. reflexivity. }
  split; [reflexivity|]. split; [reflexivity|].
  split; [apply newRowInputRate_some, Ht|].
  split; [apply newByteInputRate_some, Ht|].
  intros Hprev Hcur Ht0 Hnow. split; [auto|].
  intros Hnil Hpos. subst st'. simpl.
  rewrite (newRowInputRate_some _ _ _ _ Ht), Hnil.
  rewrite addExponentiallyWeightedToHistory_nil by exact Hpos.
  rewrite Hex by assumption. reflexivity.
Qed.

(** The rate block applies no guard on [activeWorkers]: for a callback
    whose scope holds a previous snapshot, the quotient of the CPU time
    delta by zero, divided by the elapsed seconds, is never a finite
    number and is handed to the smoothing helper like any other rate. *)
Theorem zero_workers_sample_emitted scope clusterState t now now' st :
  lastRefresh scope = Some t ->
  prop clusterState "activeWorkers" = JNum 0 ->
  let st' := refreshLoop_success maxLength alpha scope clusterState now now' st in
  isFinite (perWorkerCpuRate scope clusterState t now) = false
  /\ perWorkerCpuTimeRate st'
     = addExponentiallyWeightedToHistory
         (JNum (perWorkerCpuRate scope clusterState t now)) (perWorkerCpuTimeRate scope)
  /\ length (perWorkerCpuTimeRate st')
     = min (S (length (perWorkerCpuTimeRate scope))) maxLength
  /\ rowInputRate st'
     = addExponentiallyWeightedToHistory
         (JNum (rowRate scope clusterState t now)) (rowInputRate scope)
  /\ byteInputRate st'
     = addExponentiallyWeightedToHistory
         (JNum (byteRate scope clusterState t now)) (byteInputRate scope).
Proof.
  intros Ht Hw st'. subst st'. simpl.
  rewrite (newPerWorkerCpuTimeRate_some _ _ _ _ Ht).
  rewrite (newRowInputRate_some _ _ _ _ Ht), (newByteInputRate_some _ _ _ _ Ht).
  repeat split.
  - unfold perWorkerCpuRate. rewrite Hw. simpl ToNumber.
    apply isFinite_div_l, isFinite_div_zero.
  - apply addExponentiallyWeightedToHistory_length.
Qed.

(** The rate block does not test the elapsed time either: for a
    callback whose scope holds a previous snapshot the three deltas are
    divided by the elapsed seconds whatever they are, and with an elapsed
    time of exactly zero none of the quotients is a finite number. *)
Theorem nonpositive_elapsed_rates_emitted scope clusterState t now now' st :
  lastRefresh scope = Some t ->
  (now - t <= 0)%Z ->
  let st' := refreshLoop_success maxLength alpha scope clusterState now now' st in
  rowInputRate st'
  = addExponentiallyWeightedToHistory
      (JNum (rowRate scope clusterState t now)) (rowInputRate scope)
  /\ byteInputRate st'
     = addExponentiallyWeightedToHistory
         (JNum (byteRate scope clusterState t now)) (byteInputRate scope)
  /\ perWorkerCpuTimeRate st'
     = addExponentiallyWeightedToHistory
         (JNum (perWorkerCpuRate scope clusterState t now)) (perWorkerCpuTimeRate scope)
  /\ length (rowInputRate st') = min (S (length (rowInputRate scope))) maxLength
  /\ length (byteInputRate st') = min (S (length (byteInputRate scope))) maxLength
  /\ length (perWorkerCpuTimeRate st')
     = min (S (length (perWorkerCpuTimeRate scope))) maxLength
  /\ (now = t ->
      isFinite (rowRate scope clusterState t now) = false
      /\ isFinite (byteRate scope clusterState t now) = false
      /\ isFinite (perWorkerCpuRate scope clusterState t now) = false).
Proof.
  intros Ht _ st'. subst st'. simpl.
  rewrite (newPerWorkerCpuTimeRate_some _ _ _ _ Ht).
  rewrite (newRowInputRate_some _ _ _ _ Ht), (newByteInputRate_some _ _ _ _ Ht).
  repeat split; try apply addExponentiallyWeightedToHistory_length.
  all: subst now; unfold rowRate, byteRate, perWorkerCpuRate;
    rewrite secsSinceRefresh_same; apply isFinite_div_zero.
Qed.

(** C9: the three rate series of the state after a successful poll are
    the arrays computed from the callback's scope before any state
    update; they do not depend on the series held by the state at that
    moment.  When the scope has no previous snapshot they are empty
    arrays, whatever samples the state held. *)
Theorem rate_series_replaced scope clusterState now now' st :
  let st' := refreshLoop_success maxLength alpha scope clusterState now now' st in
  (rowInputRate st' = newRowInputRate maxLength alpha scope clusterState now
   /\ byteInputRate st' = newByteInputRate maxLength alpha scope clusterState now
   /\ perWorkerCpuTimeRate st'
      = newPerWorkerCpuTimeRate maxLength alpha scope clusterState now)
  /\ (forall other : HudState,
        let st'' := refreshLoop_success maxLength alpha scope clusterState now now' other in
        rowInputRate st'' = rowInputRate st'
        /\ byteInputRate st'' = byteInputRate st'
        /\ perWorkerCpuTimeRate st'' = perWorkerCpuTimeRate st')
  /\ (lastRefresh scope = None ->
      rowInputRate st' = [] /\ byteInputRate st' = [] /\ perWorkerCpuTimeRate st' = []).
Proof.
  intros st'. subst st'. simpl.
  split; [repeat split|]. split; [intros other; repeat split|].
  intros Hn. unfold newRowInputRate, newByteInputRate, newPerWorkerCpuTimeRate.
  rewrite Hn. repeat split.
Qed.

End Rates.

Lemma rate_correctness_witness :
  lastRefresh Sample.after_poll1 = Some 0%Z
  /\ lastInputRows Sample.after_poll1 = JNum 1000
  /\ prop Sample.poll2 "totalInputRows" = JNum 1500
  /\ rowRate Sample.after_poll1 Sample.poll2 0 1000 = 500%float
  /\ rowInputRate
       (refreshLoop_success Sample.maxLength Sample.alpha
          Sample.after_poll1 Sample.poll2 1000 1000 Sample.after_poll1)
     = [JNum 500].
Proof.
  assert (Ht : lastRefresh Sample.after_poll1 = Some 0%Z) by reflexivity.
  destruct (rate_correctness Sample.maxLength Sample.alpha
              Sample.after_poll1 Sample.poll2 0 1000 1000 Sample.after_poll1 Ht)
    as (_ & _ & _ & _ & Hex).
  destruct Hex as [Hrate Hseries]; try reflexivity.
  split; [exact Ht|]. split; [reflexivity|]. split; [reflexivity|].
  split; [exact Hrate|].
  apply Hseries; [reflexivity | unfold Sample.maxLength; lia].
Defined.

(** The block on a scope that holds the first snapshot, for a second
    snapshot taken without workers. *)
Lemma zero_workers_series_grows :
  lastRefresh Sample.after_poll1 = Some 0%Z
  /\ prop Sample.poll2_no_workers "activeWorkers" = JNum 0
  /\ length (perWorkerCpuTimeRate Sample.after_poll1) = 0
  /\ perWorkerCpuTimeRate
       (refreshLoop_success Sample.maxLength Sample.alpha
          Sample.after_poll1 Sample.poll2_no_workers 1000 1000 Sample.after_poll1)
     = [JNum infinity].
Proof. repeat split; vm_compute; reflexivity. Qed.

Lemma zero_workers_sample_emitted_witness :
  isFinite (perWorkerCpuRate Sample.after_poll1 Sample.poll2_no_workers 0 1000) = false
  /\ length
       (perWorkerCpuTimeRate
          (refreshLoop_success Sample.maxLength Sample.alpha
             Sample.after_poll1 Sample.poll2_no_workers 1000 1000 Sample.after_poll1))
     = 1.
Proof.
  destruct (zero_workers_sample_emitted Sample.maxLength Sample.alpha
              Sample.after_poll1 Sample.poll2_no_workers 0 1000 1000 Sample.after_poll1)
    as (Hinf & _ & Hlen & _); [reflexivity | reflexivity |].
  split; [exact Hinf | exact Hlen].
Defined.

(** The block on a scope that holds the first snapshot, run at the very
    millisecond of that snapshot. *)
Lemma zero_elapsed_rate_infinite :
  lastRefresh Sample.after_poll1 = Some 0%Z
  /\ (0 - 0 <= 0)%Z
  /\ rowInputRate
       (refreshLoop_success Sample.maxLength Sample.alpha
          Sample.after_poll1 Sample.poll2 0 0 Sample.after_poll1)
     = [JNum infinity]
  /\ isFinite infinity = false.
Proof. repeat split; vm_compute; try reflexivity. discriminate. Qed.

Lemma nonpositive_elapsed_rates_emitted_witness :
  length
    (rowInputRate
       (refreshLoop_success Sample.maxLength Sample.alpha
          Sample.after_poll1 Sample.poll2 0 0 Sample.after_poll1)) = 1
  /\ isFinite (rowRate Sample.after_poll1 Sample.poll2 0 0) = false.
Proof.
  destruct (nonpositive_elapsed_rates_emitted Sample.maxLength Sample.alpha
              Sample.after_poll1 Sample.poll2 0 0 0 Sample.after_poll1)
    as (_ & _ & _ & Hlen & _ & _ & Hnf); [reflexivity | lia |].
  split; [exact Hlen | apply Hnf; reflexivity].
Defined.

Lemma rate_series_replaced_witness :
  rowInputRate Sample.with_rates = [JNum 500]
  /\ byteInputRate Sample.with_rates = [JNum 200000]
  /\ perWorkerCpuTimeRate Sample.with_rates = [JNum 1]
  /\ lastRefresh initState = None
  /\ rowInputRate
       (refreshLoop_success Sample.maxLength Sample.alpha
          initState Sample.poll3 2000 2000 Sample.with_rates) = []
  /\ byteInputRate
       (refreshLoop_success Sample.maxLength Sample.alpha
          initState Sample.poll3 2000 2000 Sample.with_rates) = []
  /\ perWorkerCpuTimeRate
       (refreshLoop_success Sample.maxLength Sample.alpha
          initState Sample.poll3 2000 2000 Sample.with_rates) = [].
Proof.
  destruct (rate_series_replaced Sample.maxLength Sample.alpha
              initState Sample.poll3 2000 2000 Sample.with_rates)
    as (_ & _ & Hempty).
  destruct Hempty as (Hrow & Hbyte & Hcpu); [reflexivity|].
  repeat split; try assumption; reflexivity.
Defined.

(** ** The reserved-memory gauge *)

Section ReservedMemory.
Variable maxLength : nat.
Variable alpha : float.

Local Abbreviation addExponentiallyWeightedToHistory :=
  (Utils.addExponentiallyWeightedToHistory maxLength alpha).

Lemma last_trim_snoc (l : list jsval) (x : jsval) :
  0 < maxLength -> last (Utils.trim maxLength (l ++ [x])) = Some x.
Proof.
  intros Hpos. unfold Utils.trim.
  rewrite length_app, drop_app_le by (simpl; lia).
  apply last_snoc.
Qed.

(** The sample appended for a raw value of [undefined] carries no data:
    it is [undefined] itself on an empty series and NaN otherwise. *)
Lemma addExponentiallyWeightedToHistory_undefined (s : list jsval) :
  0 < maxLength ->
  exists sample,
    last (addExponentiallyWeightedToHistory JUndefined s) = Some sample
    /\ no_data sample = true
    /\ (s = [] -> sample = JUndefined).
Proof.
  intros Hpos. unfold Utils.addExponentiallyWeightedToHistory.
  destruct (last s) as [lastSample|] eqn:Hlast.
  - eexists. split; [apply last_trim_snoc, Hpos|]. split.
    + simpl. apply isNaN_add_l, isNaN_mul_r. reflexivity.
    + intros ->. discriminate.
  - exists JUndefined. split; [apply last_trim_snoc, Hpos|]. split; reflexivity.
Qed.

Lemma prop_insert_ne (o : gmap string jsval) (k k' : string) (v : jsval) :
  k <> k' -> prop (<[k := v]> o) k' = prop o k'.
Proof. intros Hne. unfold prop. rewrite lookup_insert_ne by exact Hne. reflexivity. Qed.

End ReservedMemory.

(** ** The polling loop of the mounted component *)

Section Loop.
Variable maxLength : nat.
Variable alpha : float.

Lemma clearTimeout_empty (id : option nat) : clearTimeout id ∅ = ∅.
Proof. destruct id; [apply delete_empty | reflexivity]. Qed.

Lemma updateEffect_rates now now' st :
  rates_empty st -> rates_empty (updateEffect now now' st).2.
Proof. unfold updateEffect. destruct (renderPermitted _ _); intros H; exact H. Qed.

Lemma updateEffect_raw now now' st :
  raw_empty st -> raw_empty (updateEffect now now' st).2.
Proof. unfold updateEffect. destruct (renderPermitted _ _); intros H; exact H. Qed.

Lemma updateEffect_lastRefresh now now' st :
  lastRefresh (updateEffect now now' st).2 = lastRefresh st.
Proof. unfold updateEffect. destruct (renderPermitted _ _); reflexivity. Qed.

Lemma mount_invariant : loop_invariant mount.
Proof.
  split; [reflexivity|]. split; [|repeat split].
  apply fetching; reflexivity.
Qed.

Lemma resetTimerScope_memoised (c : Component) (kept : HudState) :
  resetTimerMemo c = Some kept -> resetTimerScope c = kept.
Proof. intros H. unfold resetTimerScope. rewrite H. reflexivity. Qed.

Lemma render_memoised (c : Component) (kept : HudState) :
  resetTimerMemo c = Some kept -> resetTimerMemo (render c) = Some kept.
Proof. intros H. simpl. rewrite (resetTimerScope_memoised c kept H). reflexivity. Qed.

Lemma resetTimer_timers (c : Component) :
  resetTimerMemo c = Some initState ->
  clearTimeout (timeoutIdRef c) (timers c) = ∅ ->
  timers (resetTimer c) = {[nextTimerId c := the_timer]}.
Proof.
  intros Hmemo Hclear. simpl.
  rewrite Hclear, (resetTimerScope_memoised c initState Hmemo).
  apply insert_empty.
Qed.

Lemma step_invariant (c : Component) (e : event) :
  loop_invariant c -> loop_invariant (step maxLength alpha c e).
Proof.
  intros (Hscope & Hphase & Hrates).
  destruct e as [clusterState now now'| |id'|now now']; simpl step.
  - destruct Hphase as [Hreq Htm|id Hreq Href Htm]; rewrite Hreq;
      [|split; [assumption|split; [eapply sleeping; eassumption|assumption]]].
    split; [apply render_memoised; exact Hscope|]. split; [|repeat split].
    apply (sleeping _ (nextTimerId c)); try reflexivity.
    apply (resetTimer_timers
             (with_hud (refreshLoop_success maxLength alpha initState clusterState now now' (hud c))
                (with_requests [] c))); [exact Hscope|].
    simpl. rewrite Htm. apply clearTimeout_empty.
  - destruct Hphase as [Hreq Htm|id Hreq Href Htm]; rewrite Hreq;
      [|split; [assumption|split; [eapply sleeping; eassumption|assumption]]].
    split; [exact Hscope|]. split; [|exact Hrates].
    apply (sleeping _ (nextTimerId c)); try reflexivity.
    apply (resetTimer_timers (with_hud (refreshLoop_fail (hud c)) (with_requests [] c)));
      [exact Hscope|].
    simpl. rewrite Htm. apply clearTimeout_empty.
  - destruct Hphase as [Hreq Htm|id Hreq Href Htm]; rewrite Htm.
    + rewrite lookup_empty.
      split; [assumption|split; [apply fetching; assumption|assumption]].
    + destruct (decide (id = id')) as [<-|Hne].
      * rewrite lookup_singleton_eq.
        split; [exact Hscope|]. split; [|exact Hrates].
        apply fetching; simpl.
        -- rewrite Hreq. reflexivity.
        -- rewrite Href. simpl. rewrite delete_singleton_eq. apply delete_empty.
      * rewrite lookup_singleton_ne by exact Hne.
        split; [assumption|split; [eapply sleeping; eassumption|assumption]].
  - split; [apply (render_memoised c initState Hscope)|].
    split; [|apply updateEffect_rates, Hrates].
    destruct Hphase as [Hreq Htm|id Hreq Href Htm].
    + apply fetching; assumption.
    + eapply sleeping; eassumption.
Qed.

Lemma foldl_invariant (es : list event) (c : Component) :
  loop_invariant c -> loop_invariant (foldl (step maxLength alpha) c es).
Proof.
  revert c. induction es as [|e es IH]; intros c Hc; simpl.
  - exact Hc.
  - apply IH, step_invariant, Hc.
Qed.

Lemma run_invariant (es : list event) : loop_invariant (run maxLength alpha es).
Proof. apply foldl_invariant, mount_invariant. Qed.

(** Until a poll succeeds every series is empty and no previous snapshot
    is recorded. *)
Lemma foldl_no_success (es : list event) (c : Component) :
  forallb (fun e => negb (is_success e)) es = true ->
  raw_empty (hud c) -> lastRefresh (hud c) = None ->
  raw_empty (hud (foldl (step maxLength alpha) c es))
  /\ lastRefresh (hud (foldl (step maxLength alpha) c es)) = None.
Proof.
  revert c. induction es as [|e es IH]; intros c Hes Hraw Hlast; simpl.
  - split; assumption.
  - simpl in Hes. apply andb_prop in Hes as [He Hes].
    apply IH; [exact Hes| |];
      destruct e as [clusterState now now'| |id'|now now']; simpl in *;
      try discriminate.
    + destruct (requests c); assumption.
    + destruct (timers c !! id'); assumption.
    + apply updateEffect_raw, Hraw.
    + destruct (requests c); assumption.
    + destruct (timers c !! id'); assumption.
    + rewrite updateEffect_lastRefresh. exact Hlast.
Qed.

(** The failure callback leaves the React state alone... *)
Lemma fetch_fail_keeps_state (c : Component) :
  hud (step maxLength alpha c FetchFail) = hud c.
Proof. simpl. destruct (requests c); reflexivity. Qed.

(** ... and sets the one timer, with the fixed delay, however many
    failures came before. *)
Lemma fetch_fail_reschedules (es : list event) :
  requests (run maxLength alpha es) <> [] ->
  let c' := step maxLength alpha (run maxLength alpha es) FetchFail in
  exists id, timeoutIdRef c' = Some id /\ timers c' = {[id := the_timer]}.
Proof.
  intros Hreq c'.
  assert (Hinv : loop_invariant c') by apply step_invariant, run_invariant.
  destruct (run_invariant es) as (Hscope & Hphase & _).
  destruct Hphase as [Hr Htm|id Hr Href Htm]; [|contradiction].
  exists (nextTimerId (run maxLength alpha es)). subst c'. simpl step. rewrite Hr.
  split; [reflexivity|].
  apply (resetTimer_timers
           (with_hud (refreshLoop_fail (hud (run maxLength alpha es)))
              (with_requests [] (run maxLength alpha es)))); [exact Hscope|].
  simpl. rewrite Htm. apply clearTimeout_empty.
Qed.

(** X1: a failed fetch changes no series and no field of the React
    state; unless no request was in flight, it leaves exactly one timer
    pending, set to the fixed delay of 1000 ms, and this holds after any
    history of the component, that is, after any number of failures. *)
Theorem failed_poll_leaves_state (es : list event) :
  let c := run maxLength alpha es in
  let c' := step maxLength alpha c FetchFail in
  hud c' = hud c
  /\ delay the_timer = 1000%Z
  /\ (requests c = []
      \/ exists id, timeoutIdRef c' = Some id /\ timers c' = {[id := the_timer]}).
Proof.
  intros c c'. split; [apply fetch_fail_keeps_state|]. split; [reflexivity|].
  destruct (requests c) as [|scope rest] eqn:Hreq; [left; reflexivity | right].
  apply fetch_fail_reschedules. fold c. rewrite Hreq. discriminate.
Qed.

(** X2: every [refreshLoop] that the mounted component runs is the one
    of the first render, which sees no previous snapshot: after any
    history of the component the three rate series are empty, every
    request in flight and every pending timer belongs to the first
    render, and the memoised [resetTimer] is the one of the first
    render. *)
Theorem mounted_loop_is_first_render (es : list event) :
  let c := run maxLength alpha es in
  rates_empty (hud c)
  /\ resetTimerMemo c = Some initState
  /\ (forall scope, scope ∈ requests c -> scope = initState)
  /\ (forall id tm, timers c !! id = Some tm -> tm = the_timer)
  /\ lastRefresh initState = None.
Proof.
  intros c. destruct (run_invariant es) as (Hmemo & Hphase & Hrates). fold c in Hmemo, Hphase, Hrates.
  split; [exact Hrates|]. split; [exact Hmemo|].
  split; [|split; [|reflexivity]].
  - intros scope Hin. destruct Hphase as [Hr _|id Hr _ _]; rewrite Hr in Hin.
    + apply list_elem_of_singleton in Hin. exact Hin.
    + apply not_elem_of_nil in Hin. contradiction.
  - intros id tm Hl. destruct Hphase as [_ Htm|id0 _ _ Htm]; rewrite Htm in Hl.
    + rewrite lookup_empty in Hl. discriminate.
    + apply lookup_singleton_Some in Hl as [_ <-]. reflexivity.
Qed.

(** C4: on the first successful poll of the mounted component, that
    is, with no successful poll before it, the callback sees no previous
    snapshot and computes no rate: the three rate series, empty before,
    are empty after, while each of the six point-in-time series, empty
    before, holds exactly one sample, the value of its field in the
    snapshot. *)
Theorem first_poll_guard (es : list event) clusterState now now' :
  0 < maxLength ->
  forallb (fun e => negb (is_success e)) es = true ->
  requests (run maxLength alpha es) <> [] ->
  let before := hud (run maxLength alpha es) in
  let st' :=
    hud (step maxLength alpha (run maxLength alpha es) (FetchDone clusterState now now')) in
  lastRefresh before = None
  /\ rates_empty before
  /\ rates_empty st'
  /\ raw_empty before
  /\ runningQueries st' = [prop clusterState "runningQueries"]
  /\ queuedQueries st' = [prop clusterState "queuedQueries"]
  /\ blockedQueries st' = [prop clusterState "blockedQueries"]
  /\ activeWorkers st' = [prop clusterState "activeWorkers"]
  /\ runningDrivers st' = [prop clusterState "runningDrivers"]
  /\ reservedMemory st' = [prop clusterState "reservedMemory"].
Proof.
  intros Hpos Hes Hreq before st'.
  destruct (foldl_no_success es mount Hes) as [Hraw Hlast];
    [repeat split | reflexivity |].
  fold (run maxLength alpha es) in Hraw, Hlast.
  destruct (run_invariant es) as (_ & Hphase & Hrates).
  destruct Hphase as [Hr _|id Hr _ _]; [|contradiction].
  split; [exact Hlast|]. split; [exact Hrates|].
  subst st'. simpl. rewrite Hr. simpl.
  split; [repeat split|]. split; [exact Hraw|].
  destruct Hraw as (-> & -> & -> & -> & -> & ->).
  rewrite !(addToHistory_nil maxLength _ Hpos).
  rewrite !(addExponentiallyWeightedToHistory_nil maxLength alpha _ Hpos).
  repeat split.
Qed.

(** Clearing the recorded timer of a tracked table empties it. *)
Lemma tracked_clear (c : Component) :
  timer_tracked c -> clearTimeout (timeoutIdRef c) (timers c) = ∅.
Proof.
  intros Htr. apply map_empty. intros id.
  destruct (clearTimeout (timeoutIdRef c) (timers c) !! id) as [tm|] eqn:Hl;
    [|reflexivity].
  exfalso. unfold clearTimeout in Hl.
  destruct (timeoutIdRef c) as [r|] eqn:Href.
  - apply lookup_delete_Some in Hl as [Hne Hl].
    specialize (Htr id (ex_intro _ tm Hl)). congruence.
  - specialize (Htr id (ex_intro _ tm Hl)). congruence.
Qed.

Lemma tracked_size (c : Component) : timer_tracked c -> size (timers c) <= 1.
Proof.
  intros Htr. destruct (timeoutIdRef c) as [r|] eqn:Href.
  - pose proof (tracked_clear c Htr) as Hclear. rewrite Href in Hclear. simpl in Hclear.
    destruct (timers c !! r) as [tm|] eqn:Hr.
    + rewrite <- (insert_delete_id (timers c) r tm Hr), Hclear, insert_empty.
      rewrite map_size_singleton. lia.
    + rewrite delete_id in Hclear by exact Hr. rewrite Hclear, map_size_empty. lia.
  - pose proof (tracked_clear c Htr) as Hclear. rewrite Href in Hclear. simpl in Hclear.
    rewrite Hclear, map_size_empty. lia.
Qed.

Lemma resetTimer_tracked (c : Component) : timer_tracked c -> timer_tracked (resetTimer c).
Proof.
  intros Htr id [tm Hl]. simpl in *.
  rewrite (tracked_clear c Htr) in Hl.
  apply lookup_insert_Some in Hl as [[<- _]|[_ Hl]]; [reflexivity|].
  rewrite lookup_empty in Hl. discriminate.
Qed.

Lemma refreshLoop_tracked (scope : HudState) (c : Component) :
  timer_tracked c -> timer_tracked (refreshLoop scope c).
Proof.
  intros Htr id [tm Hl]. simpl in *.
  rewrite (tracked_clear c Htr), lookup_empty in Hl. discriminate.
Qed.

(** The tracking is kept by every event, whatever the number of requests
    in flight. *)
Lemma step_tracked (c : Component) (e : event) :
  timer_tracked c -> timer_tracked (step maxLength alpha c e).
Proof.
  intros Htr. destruct e as [clusterState now now'| |id'|now now']; simpl step.
  - destruct (requests c) as [|scope rest]; [exact Htr|].
    apply (resetTimer_tracked
             (with_hud (refreshLoop_success maxLength alpha scope clusterState now now' (hud c))
                (with_requests rest c))).
    exact Htr.
  - destruct (requests c) as [|scope rest]; [exact Htr|].
    apply (resetTimer_tracked (with_hud (refreshLoop_fail (hud c)) (with_requests rest c))).
    exact Htr.
  - destruct (timers c !! id') as [tm|] eqn:Hl; [|exact Htr].
    apply refreshLoop_tracked. intros id [tm' Hl']. simpl in *.
    apply lookup_delete_Some in Hl' as [_ Hl']. apply Htr. eauto.
  - exact Htr.
Qed.

(** C8: at every instant of the life of the mounted component at most
    one timer is pending, and the loop has exactly one continuation: a
    request in flight or a pending timer, never both and never two of a
    kind.  [resetTimer] leaves its new timer as the only pending one,
    entering [refreshLoop] leaves none, and so does the unmount cleanup.
    The cancellation does not depend on the loop being alone: from any
    state in which the pending timers are recorded in [timeoutIdRef],
    whatever the number of requests in flight, [resetTimer], a
    (re-)entry of [refreshLoop] and every event keep them recorded, so
    that at most one is pending. *)
Theorem single_pending_timer (es : list event) :
  let c := run maxLength alpha es in
  size (timers c) <= 1
  /\ length (requests c) + size (timers c) = 1
  /\ timers (resetTimer c) = {[nextTimerId c := the_timer]}
  /\ (forall scope, timers (refreshLoop scope c) = ∅)
  /\ timers (unmount c) = ∅
  /\ (forall any : Component,
        timer_tracked any ->
        size (timers any) <= 1
        /\ size (timers (resetTimer any)) = 1
        /\ timer_tracked (resetTimer any)
        /\ (forall scope, timers (refreshLoop scope any) = ∅)
        /\ (forall e, timer_tracked (step maxLength alpha any e))).
Proof.
  intros c.
  assert (Hany : forall any : Component,
             timer_tracked any ->
             size (timers any) <= 1
             /\ size (timers (resetTimer any)) = 1
             /\ timer_tracked (resetTimer any)
             /\ (forall scope, timers (refreshLoop scope any) = ∅)
             /\ (forall e, timer_tracked (step maxLength alpha any e))).
  { intros any Htr. split; [apply tracked_size, Htr|]. split.
    - simpl. rewrite (tracked_clear any Htr), insert_empty. apply map_size_singleton.
    - split; [apply resetTimer_tracked, Htr|]. split.
      + intros scope. apply (tracked_clear any Htr).
      + intros e. apply step_tracked, Htr. }
 destruct (run_invariant es) as (Hscope & Hphase & _). fold c in Hscope, Hphase.
  assert (Hclear : clearTimeout (timeoutIdRef c) (timers c) = ∅).
  { destruct Hphase as [_ Htm|id _ Href Htm]; rewrite Htm.
    - apply clearTimeout_empty.
    - rewrite Href. apply delete_singleton_eq. }
  assert (Hsize : length (requests c) + size (timers c) = 1).
  { destruct Hphase as [Hr Htm|id Hr _ Htm]; rewrite Hr, Htm.
    - rewrite map_size_empty. reflexivity.
    - rewrite map_size_singleton. reflexivity. }
  split; [lia|]. split; [exact Hsize|].
  split; [|split; [|split]].
  - apply resetTimer_timers; assumption.
  - intros scope. exact Hclear.
  - exact Hclear.
  - exact Hany.
Qed.

End Loop.

Lemma first_poll_guard_witness :
  let polled :=
    hud (step Sample.maxLength Sample.alpha
           (run Sample.maxLength Sample.alpha [FetchFail; TimerFired 1])
           (FetchDone Sample.poll1 0 0)) in
  forallb (fun e => negb (is_success e)) [FetchFail; TimerFired 1] = true
  /\ rates_empty polled
  /\ runningQueries polled = [JNum 3]
  /\ activeWorkers polled = [JNum 2]
  /\ runningDrivers polled = [JNum 16]
  /\ reservedMemory polled = [JNum 4096].
Proof.
  destruct (first_poll_guard Sample.maxLength Sample.alpha
              [FetchFail; TimerFired 1] Sample.poll1 0 0)
    as (_ & _ & Hrates & _ & Hrq & _ & _ & Haw & Hrd & Hrm).
  - unfold Sample.maxLength. lia.
  - reflexivity.
  - intros H. vm_compute in H. discriminate H.
  - split; [reflexivity|]. split; [exact Hrates|].
    split; [exact Hrq|]. split; [exact Haw|]. split; [exact Hrd | exact Hrm].
Defined.

Lemma updateEffect_permitted now now' st :
  renderPermitted (lastRender st) now = true ->
  updateEffect now now' st = (sparklines st, setLastRender now' st).
Proof. intros H. unfold updateEffect. rewrite H. reflexivity. Qed.

Lemma updateEffect_refused now now' st :
  renderPermitted (lastRender st) now = false ->
  updateEffect now now' st = ([], st).
Proof. intros H. unfold updateEffect. rewrite H. reflexivity. Qed.

(** C7: the redraw is permitted exactly when no render was recorded or
    at least 1000 ms have passed since the recorded one.  A permitted
    effect draws the nine charts and records its clock reading as the new
    [lastRender]; a refused one draws nothing and leaves the state as it
    is.  Starting from the mounted state, an effect at time [t] draws, one
    at [t + 200] does not, and one at [t + 1000] draws again. *)
Theorem render_throttle (st : HudState) (now now' t : Z) :
  let first := updateEffect t t initState in
  let second := updateEffect (t + 200) (t + 200) first.2 in
  let third := updateEffect (t + 1000) (t + 1000) second.2 in
  (renderPermitted (lastRender st) now = true <->
     lastRender st = None \/ exists t0, lastRender st = Some t0 /\ (1000 <= now - t0)%Z)
  /\ (if renderPermitted (lastRender st) now
      then (updateEffect now now' st).1 = sparklines st
           /\ lastRender (updateEffect now now' st).2 = Some now'
      else updateEffect now now' st = ([], st))
  /\ length (sparklines st) = 9
  /\ (renderPermitted None t = true
      /\ renderPermitted (Some t) (t + 200) = false
      /\ renderPermitted (Some t) (t + 1000) = true)
  /\ (first.1 = sparklines initState /\ lastRender first.2 = Some t)
  /\ second = ([], first.2)
  /\ (third.1 = sparklines second.2 /\ lastRender third.2 = Some (t + 1000)%Z).
Proof.
  intros first second third.
  assert (H200 : renderPermitted (Some t) (t + 200) = false).
  { simpl. apply Z.leb_gt. lia. }
  assert (H1000 : renderPermitted (Some t) (t + 1000) = true).
  { simpl. apply Z.leb_le. lia. }
  assert (Hsecond : second = ([], first.2)).
  { subst second first.
    apply (updateEffect_refused (t + 200) (t + 200) (setLastRender t initState) H200). }
  split; [|split; [|split; [|split; [|split; [|split]]]]].
  - unfold renderPermitted. destruct (lastRender st) as [t0|].
    + rewrite Z.leb_le. split.
      * intros H. right. exists t0. split; [reflexivity | exact H].
      * intros [H|(t1 & H & Hle)]; [discriminate|]. injection H as ->. exact Hle.
    + split; [left; reflexivity | reflexivity].
  - unfold updateEffect. destruct (renderPermitted (lastRender st) now).
    + split; reflexivity.
    + reflexivity.
  - reflexivity.
  - repeat split; assumption.
  - split; reflexivity.
  - exact Hsecond.
  - subst third. rewrite Hsecond. simpl snd.
    rewrite (updateEffect_permitted (t + 1000) (t + 1000) (setLastRender t initState) H1000).
    split; reflexivity.
Qed.

(** C5, on the scenario of the specification: a first poll answered at
    time 0, a failed second poll, a third poll answered at time 2000.
    The failure leaves the state of the first poll as it was and sets
    the one timer with the fixed delay, so the state still records the
    baseline of the first poll, against which the row rate of the third
    snapshot would be 500.  The callback that handles the third poll,
    however, closed over the first render, where there is no previous
    snapshot: it computes no rate and the three rate series are empty. *)
Theorem poll_after_failure_has_no_baseline :
  let failed :=
    run Sample.maxLength Sample.alpha [FetchDone Sample.poll1 0 0; TimerFired 1; FetchFail] in
  let polled :=
    run Sample.maxLength Sample.alpha
      [FetchDone Sample.poll1 0 0; TimerFired 1; FetchFail;
       TimerFired 2; FetchDone Sample.poll3 2000 2000] in
  hud failed = Sample.after_poll1
  /\ timers failed = {[2 := the_timer]}
  /\ lastRefresh (hud failed) = Some 0%Z
  /\ lastInputRows (hud failed) = JNum 1000
  /\ newRowInputRate Sample.maxLength Sample.alpha (hud failed) Sample.poll3 2000
     = [JNum 500]
  /\ requests polled = []
  /\ lastInputRows (hud polled) = JNum 2000
  /\ rowInputRate (hud polled) = []
  /\ byteInputRate (hud polled) = []
  /\ perWorkerCpuTimeRate (hud polled) = [].
Proof. repeat split; vm_compute; reflexivity. Qed.

(** * Further properties of the component *)

(** ** Redraws are spaced *)

Section Throttle.
Variable maxLength : nat.
Variable alpha : float.

Lemma step_keeps_lastRender (c : Component) (e : event) :
  redraws c e = false ->
  lastRender (hud (step maxLength alpha c e)) = lastRender (hud c).
Proof.
  destruct e as [clusterState now now'| |id|now now']; simpl redraws; intros Hno.
  - simpl. destruct (requests c); reflexivity.
  - simpl. destruct (requests c); reflexivity.
  - simpl. destruct (timers c !! id); reflexivity.
  - unfold step. rewrite (updateEffect_refused now now' (hud c) Hno). reflexivity.
Qed.

Lemma no_redraw_keeps_lastRender (es : list event) (c : Component) :
  no_redraw maxLength alpha c es = true ->
  lastRender (hud (foldl (step maxLength alpha) c es)) = lastRender (hud c).
Proof.
  revert c. induction es as [|e es IH]; intros c Hq; simpl in *.
  - reflexivity.
  - apply andb_prop in Hq as [He Hq]. apply negb_true_iff in He.
    rewrite (IH _ Hq). apply step_keeps_lastRender, He.
Qed.

(** X3: responses, failures and timer firings never change the recorded
    render time, and a refused effect does not either.  Hence, in any
    history of the component, once an effect has drawn the charts and
    recorded the clock reading [n1'], the next effect that draws them
    reads a clock at least 1000 ms later, whatever happened in between
    (polls, failures, refused effects) and whatever the clock does. *)
Theorem redraws_spaced (c : Component) (n1 n1' n2 n2' : Z) (es : list event) :
  redraws c (Rendered n1 n1') = true ->
  no_redraw maxLength alpha (step maxLength alpha c (Rendered n1 n1')) es = true ->
  let quiet := foldl (step maxLength alpha) (step maxLength alpha c (Rendered n1 n1')) es in
  redraws quiet (Rendered n2 n2') = true ->
  lastRender (hud quiet) = Some n1' /\ (n1' + 1000 <= n2)%Z.
Proof.
  intros Hfirst Hquiet quiet Hsecond.
  assert (Hlast : lastRender (hud quiet) = Some n1').
  { unfold quiet. rewrite (no_redraw_keeps_lastRender es _ Hquiet).
    simpl in Hfirst. unfold step.
    rewrite (updateEffect_permitted n1 n1' (hud c) Hfirst). reflexivity. }
  split; [exact Hlast|].
  simpl in Hsecond. rewrite Hlast in Hsecond. simpl in Hsecond.
  apply Z.leb_le in Hsecond. lia.
Qed.

End Throttle.

Lemma redraws_spaced_witness :
  let history := [FetchDone Sample.poll1 5100 5100; Rendered 5200 5200; FetchFail] in
  redraws mount (Rendered 5000 5001) = true
  /\ no_redraw Sample.maxLength Sample.alpha
       (step Sample.maxLength Sample.alpha mount (Rendered 5000 5001)) history = true
  /\ lastRender
       (hud (foldl (step Sample.maxLength Sample.alpha)
               (step Sample.maxLength Sample.alpha mount (Rendered 5000 5001)) history))
     = Some 5001%Z
  /\ (5001 + 1000 <= 6001)%Z.
Proof.
  split; [reflexivity|]. split; [reflexivity|].
  apply (redraws_spaced Sample.maxLength Sample.alpha mount 5000 5001 6001 6001
           [FetchDone Sample.poll1 5100 5100; Rendered 5200 5200; FetchFail]);
    reflexivity.
Defined.

(** ** Teardown *)

Definition is_completion (e : event) : bool :=
  match e with
  | FetchDone _ _ _ | FetchFail => true
  | _ => false
  end.

Section Teardown.
Variable maxLength : nat.
Variable alpha : float.

Lemma stopped_forever (es : list event) (c : Component) :
  requests c = [] -> timers c = ∅ ->
  requests (foldl (step maxLength alpha) c es) = []
  /\ timers (foldl (step maxLength alpha) c es) = ∅.
Proof.
  revert c. induction es as [|e es IH]; intros c Hr Ht; simpl.
  - split; assumption.
  - apply IH; destruct e as [clusterState now now'| |id|now now']; simpl;
      rewrite ?Hr, ?Ht, ?lookup_empty; first [assumption | reflexivity].
Qed.

(** X4: the cleanup of the mount effect cancels the pending timer and
    nothing else.  If the loop was waiting for its timer, no request is
    ever issued and no timer ever set afterwards.  If a request was in
    flight, its completion, success or failure, sets a new timer: the
    polling loop outlives the teardown. *)
Theorem unmount_cancels_timer_only (es after : list event) (e : event) :
  let c := run maxLength alpha es in
  timers (unmount c) = ∅
  /\ requests (unmount c) = requests c
  /\ (requests c = [] ->
      requests (foldl (step maxLength alpha) (unmount c) after) = []
      /\ timers (foldl (step maxLength alpha) (unmount c) after) = ∅)
  /\ (requests c <> [] ->
      is_completion e = true ->
      requests (step maxLength alpha (unmount c) e) = []
      /\ timers (step maxLength alpha (unmount c) e)
         = {[nextTimerId c := the_timer]}).
Proof.
  intros c. destruct (run_invariant maxLength alpha es) as (Hmemo & Hphase & _).
  fold c in Hmemo, Hphase.
  assert (Hclear : clearTimeout (timeoutIdRef c) (timers c) = ∅).
  { destruct Hphase as [_ Htm|id _ Href Htm]; rewrite Htm.
    - apply clearTimeout_empty.
    - rewrite Href. apply delete_singleton_eq. }
  split; [exact Hclear|]. split; [reflexivity|]. split.
  - intros Hr. apply stopped_forever; [exact Hr | exact Hclear].
  - intros Hr He. destruct Hphase as [Hreq _|id Hreq _ _]; [|contradiction].
    destruct e as [clusterState now now'| |id|now now']; try discriminate;
      simpl step; rewrite Hreq; (split; [reflexivity|]).
    + apply (resetTimer_timers
               (with_hud (refreshLoop_success maxLength alpha initState clusterState now now'
                            (hud c))
                  (with_requests [] (unmount c)))); [exact Hmemo|].
      simpl. rewrite Hclear. apply clearTimeout_empty.
    + apply (resetTimer_timers
               (with_hud (refreshLoop_fail (hud c)) (with_requests [] (unmount c))));
        [exact Hmemo|].
      simpl. rewrite Hclear. apply clearTimeout_empty.
Qed.

End Teardown.

Lemma unmount_cancels_timer_only_witness :
  requests (run Sample.maxLength Sample.alpha []) = [initState]
  /\ timers
       (step Sample.maxLength Sample.alpha
          (unmount (run Sample.maxLength Sample.alpha [])) FetchFail)
     = {[1 := the_timer]}
  /\ requests (run Sample.maxLength Sample.alpha [FetchFail]) = []
  /\ timers
       (foldl (step Sample.maxLength Sample.alpha)
          (unmount (run Sample.maxLength Sample.alpha [FetchFail]))
          [TimerFired 1; FetchDone Sample.poll1 0 0]) = ∅.
Proof.
  split; [reflexivity|]. split.
  - destruct (unmount_cancels_timer_only Sample.maxLength Sample.alpha [] [] FetchFail)
      as (_ & _ & _ & Hleak).
    apply Hleak; [discriminate | reflexivity].
  - split; [reflexivity|].
    destruct (unmount_cancels_timer_only Sample.maxLength Sample.alpha [FetchFail]
                [TimerFired 1; FetchDone Sample.poll1 0 0] FetchFail)
      as (_ & _ & Hstop & _).
    apply Hstop. reflexivity.
Defined.

(** ** The figures shown and the size of the state *)

Section Figures.
Variable maxLength : nat.
Variable alpha : float.

Lemma latest_addToHistory (v : jsval) (s : list jsval) :
  0 < maxLength -> latest (Utils.addToHistory maxLength v s) = v.
Proof.
  intros Hpos. unfold latest, Utils.addToHistory.
  rewrite (last_trim_snoc maxLength s v Hpos). reflexivity.
Qed.

Lemma latest_addExponentiallyWeightedToHistory (v : jsval) (s : list jsval) :
  0 < maxLength ->
  latest (Utils.addExponentiallyWeightedToHistory maxLength alpha v s)
  = match last s with
    | None => v
    | Some p => JNum (alpha * ToNumber v + (1 - alpha) * ToNumber p)%float
    end.
Proof.
  intros Hpos. unfold latest, Utils.addExponentiallyWeightedToHistory.
  destruct (last s); rewrite (last_trim_snoc maxLength _ _ Hpos); reflexivity.
Qed.

Lemma statTexts_updateEffect (now now' : Z) (st : HudState) :
  statTexts (updateEffect now now' st).2 = statTexts st.
Proof. unfold updateEffect. destruct (renderPermitted _ _); reflexivity. Qed.

(** X6: the figures of the markup are read from the state on every
    render and are not gated by the render throttle.  After a successful
    poll of the mounted component the figures of the four raw series are
    the fields of the snapshot just received and those of the two smoothed
    gauges are their new moving averages, while the three rate figures
    are [undefined], since the rate series are left empty; an update
    effect, drawing or not, changes none of the nine figures. *)
Theorem figures_follow_polls
    (es : list event) (clusterState : gmap string jsval) (now now' rnow rnow' : Z) :
  0 < maxLength ->
  requests (run maxLength alpha es) <> [] ->
  let before := hud (run maxLength alpha es) in
  let polled := step maxLength alpha (run maxLength alpha es) (FetchDone clusterState now now') in
  let average := fun (v : jsval) (series : list jsval) =>
    match last series with
    | None => v
    | Some p => JNum (alpha * ToNumber v + (1 - alpha) * ToNumber p)%float
    end in
  statTexts (hud polled)
  = [ ("Running queries", prop clusterState "runningQueries");
      ("Active workers", prop clusterState "activeWorkers");
      ("Rows/sec", JUndefined);
      ("Queued queries", prop clusterState "queuedQueries");
      ("Runnable drivers", average (prop clusterState "runningDrivers") (runningDrivers before));
      ("Bytes/sec", JUndefined);
      ("Blocked Queries", prop clusterState "blockedQueries");
      ("Reserved Memory (B)",
       average (prop clusterState "reservedMemory") (reservedMemory before));
      ("Worker Parallelism", JUndefined) ]
  /\ statTexts (hud (step maxLength alpha polled (Rendered rnow rnow')))
     = statTexts (hud polled).
Proof.
  intros Hpos Hreq before polled average.
  destruct (run_invariant maxLength alpha es) as (_ & Hphase & _).
  destruct Hphase as [Hr _|id Hr _ _]; [|contradiction].
  split.
  - subst polled. simpl step. rewrite Hr. unfold statTexts. simpl.
    rewrite !(latest_addToHistory _ _ Hpos).
    rewrite !(latest_addExponentiallyWeightedToHistory _ _ Hpos).
    reflexivity.
  - simpl. apply statTexts_updateEffect.
Qed.

Lemma all_series_updateEffect (now now' : Z) (st : HudState) :
  all_series (updateEffect now now' st).2 = all_series st.
Proof. unfold updateEffect. destruct (renderPermitted _ _); reflexivity. Qed.

Lemma refreshLoop_success_bounded scope clusterState now now' st :
  Forall (fun s : list jsval => length s <= maxLength)
    (all_series (refreshLoop_success maxLength alpha scope clusterState now now' st)).
Proof.
  unfold all_series. simpl.
  unfold newRowInputRate, newByteInputRate, newPerWorkerCpuTimeRate.
  destruct (lastRefresh scope);
    repeat (apply List.Forall_cons;
            [rewrite ?addToHistory_length, ?addExponentiallyWeightedToHistory_length;
             cbn [length]; lia|]);
    apply List.Forall_nil.
Qed.

Lemma step_bounded (c : Component) (e : event) :
  Forall (fun s : list jsval => length s <= maxLength) (all_series (hud c)) ->
  Forall (fun s : list jsval => length s <= maxLength)
    (all_series (hud (step maxLength alpha c e))).
Proof.
  intros Hb. destruct e as [clusterState now now'| |id|now now']; simpl.
  - destruct (requests c); [exact Hb | apply refreshLoop_success_bounded].
  - destruct (requests c); exact Hb.
  - destruct (timers c !! id); exact Hb.
  - rewrite all_series_updateEffect. exact Hb.
Qed.

(** X7: whatever scope the success callback closed over and whatever
    state it finds, none of the nine series that it leaves holds more than
    [maxLength] samples; and at every instant of the life of the mounted
    component, none of the nine series of the state does. *)
Theorem series_stay_bounded
    (es : list event) (scope st : HudState) (clusterState : gmap string jsval)
    (now now' : Z) :
  Forall (fun s : list jsval => length s <= maxLength)
    (all_series (refreshLoop_success maxLength alpha scope clusterState now now' st))
  /\ Forall (fun s : list jsval => length s <= maxLength)
       (all_series (hud (run maxLength alpha es))).
Proof.
  split; [apply refreshLoop_success_bounded|].
  unfold run.
  assert (Hgen : forall c,
             Forall (fun s : list jsval => length s <= maxLength) (all_series (hud c)) ->
             Forall (fun s : list jsval => length s <= maxLength)
               (all_series (hud (foldl (step maxLength alpha) c es)))).
  { induction es as [|e rest IH]; intros c Hb; simpl.
    - exact Hb.
    - apply IH, step_bounded, Hb. }
  apply Hgen. unfold all_series. simpl.
  repeat (apply List.Forall_cons; [simpl; lia|]). apply List.Forall_nil.
Qed.

End Figures.

Lemma figures_follow_polls_witness :
  requests (run Sample.maxLength Sample.alpha [FetchDone Sample.poll1 0 0; TimerFired 1])
  = [initState]
  /\ statTexts
       (hud (step Sample.maxLength Sample.alpha
               (run Sample.maxLength Sample.alpha [FetchDone Sample.poll1 0 0; TimerFired 1])
               (FetchDone Sample.poll2 1000 1000)))
     = [ ("Running queries", JNum 4); ("Active workers", JNum 2); ("Rows/sec", JUndefined);
         ("Queued queries", JNum 0); ("Runnable drivers", JNum 0x1.0cccccccccccdp+4);
         ("Bytes/sec", JUndefined); ("Blocked Queries", JNum 0);
         ("Reserved Memory (B)", JNum 0x1.3333333333334p+12);
         ("Worker Parallelism", JUndefined) ].
Proof.
  split; [reflexivity|].
  destruct (figures_follow_polls Sample.maxLength Sample.alpha
              [FetchDone Sample.poll1 0 0; TimerFired 1] Sample.poll2 1000 1000 0 0)
    as [Htexts _].
  - unfold Sample.maxLength. lia.
  - intros H. vm_compute in H. discriminate H.
  - rewrite Htexts. reflexivity.
Defined.

(** ** Charts and figures agree *)

(** X8: the update effect draws each of the nine series of the state
    exactly once, on nine different elements, and the figure printed in
    the block of a chart element is the last sample of the very series
    drawn on that element ([undefined] when the series is empty). *)
Theorem charts_match_figures (st : HudState) :
  NoDup (sparklines st).*1
  /\ (sparklines st).*2 ≡ₚ all_series st
  /\ (sparklines st).*1 ≡ₚ (statBlocks st).*1
  /\ (forall id series,
        (id, series) ∈ sparklines st -> (id, latest series) ∈ statBlocks st)
  /\ (latest [] = JUndefined).
Proof.
  split; [|split; [|split; [|split]]].
  - simpl. apply NoDup_ListNoDup. repeat constructor; simpl; intuition discriminate.
  - simpl. unfold all_series.
    apply Permutation_skip. rewrite (Permutation_swap (queuedQueries st)).
    reflexivity.
  - simpl. apply (bool_decide_unpack _). vm_compute. reflexivity.
  - intros id series Hin. unfold sparklines in Hin.
    repeat (apply elem_of_cons in Hin as [Heq|Hin];
            [injection Heq as -> ->; unfold statBlocks; set_solver|]).
    apply elem_of_nil in Hin. contradiction.
  - reflexivity.
Qed.

(** ** What the mounted component does on a poll *)

Section MountedPolls.
Variable maxLength : nat.
Variable alpha : float.

Lemma request_scope (es : list event) (scope : HudState) :
  scope ∈ requests (run maxLength alpha es) -> scope = initState.
Proof.
  intros Hin. destruct (run_invariant maxLength alpha es) as (_ & Hphase & _).
  destruct Hphase as [Hr _|id Hr _ _]; rewrite Hr in Hin.
  - apply list_elem_of_singleton in Hin. exact Hin.
  - apply not_elem_of_nil in Hin. contradiction.
Qed.

Lemma poll_keeps_rates_empty (es : list event) (e : event) :
  rates_empty (hud (step maxLength alpha (run maxLength alpha es) e)).
Proof. apply (step_invariant maxLength alpha), (run_invariant maxLength alpha). Qed.

(** C3: on no poll of the mounted component is a rate divided by the
    elapsed time.  The callback that handles a response sees no previous
    snapshot, so it leaves the three arrays as the empty arrays they were
    initialised to; the three rate series are empty before the poll and
    empty after it, hence no sample is emitted for the tick and no
    infinity or NaN is ever held by a rate series.  This holds in
    particular when the state records a previous snapshot and the clock
    reads the time of that snapshot or an earlier one. *)
Theorem no_rate_without_division
    (es : list event) (clusterState : gmap string jsval) (now now' : Z) :
  let before := hud (run maxLength alpha es) in
  let after :=
    hud (step maxLength alpha (run maxLength alpha es) (FetchDone clusterState now now')) in
  (forall scope, scope ∈ requests (run maxLength alpha es) ->
     lastRefresh scope = None
     /\ newRowInputRate maxLength alpha scope clusterState now = []
     /\ newByteInputRate maxLength alpha scope clusterState now = []
     /\ newPerWorkerCpuTimeRate maxLength alpha scope clusterState now = [])
  /\ (rowInputRate after = rowInputRate before
      /\ byteInputRate after = byteInputRate before
      /\ perWorkerCpuTimeRate after = perWorkerCpuTimeRate before)
  /\ rates_empty after
  /\ (forall x,
        JNum x ∈ rowInputRate after ++ byteInputRate after ++ perWorkerCpuTimeRate after ->
        isFinite x = true)
  /\ (forall t,
        lastRefresh before = Some t -> (now - t <= 0)%Z ->
        requests (run maxLength alpha es) <> [] ->
        lastRefresh after = Some now'
        /\ length (rowInputRate after) = length (rowInputRate before)
        /\ length (byteInputRate after) = length (byteInputRate before)
        /\ length (perWorkerCpuTimeRate after) = length (perWorkerCpuTimeRate before)).
Proof.
  intros before after.
  destruct (run_invariant maxLength alpha es) as (_ & Hphase & Hbefore).
  fold before in Hbefore.
  assert (Hafter : rates_empty after) by apply poll_keeps_rates_empty.
  destruct Hbefore as (Hb1 & Hb2 & Hb3). destruct Hafter as (Ha1 & Ha2 & Ha3).
  split; [|split; [|split; [|split]]].
  - intros scope Hin. rewrite (request_scope es scope Hin). repeat split.
  - rewrite Ha1, Ha2, Ha3, Hb1, Hb2, Hb3. repeat split.
  - repeat split; assumption.
  - intros x Hin. rewrite Ha1, Ha2, Ha3 in Hin. simpl in Hin.
    apply not_elem_of_nil in Hin. contradiction.
  - intros t _ _ Hreq.
    split; [|rewrite Ha1, Ha2, Ha3, Hb1, Hb2, Hb3; repeat split].
    destruct Hphase as [Hr _|id Hr _ _]; [|contradiction].
    unfold after. simpl step. rewrite Hr. reflexivity.
Qed.

(** C10: on every poll, whatever the snapshot, the scope of the callback
    and the state it finds, the sample appended to the reserved-memory
    series is computed from the field [reservedMemory] of the snapshot:
    the new series is the smoothing helper applied to that field, so its
    last sample is the field itself on an empty series and the moving
    average of the field otherwise.  The field [reservedMemoryBytes] is
    not read: setting it to any value, or removing it, leaves the state
    after the poll unchanged.  Hence for a snapshot without a
    [reservedMemory] field the raw value is [undefined] and the sample
    appended carries no data ([undefined] on an empty series, NaN
    otherwise).  The same holds of every poll handled by the mounted
    component. *)
Theorem reserved_memory_field
    (scope st : HudState) (clusterState : gmap string jsval) (now now' : Z)
    (v : jsval) (es : list event) :
  let st' := refreshLoop_success maxLength alpha scope clusterState now now' st in
  let raw := prop clusterState "reservedMemory" in
  reservedMemory st'
  = Utils.addExponentiallyWeightedToHistory maxLength alpha raw (reservedMemory st)
  /\ (0 < maxLength ->
      last (reservedMemory st')
      = Some (match last (reservedMemory st) with
              | None => raw
              | Some p => JNum (alpha * ToNumber raw + (1 - alpha) * ToNumber p)%float
              end))
  /\ refreshLoop_success maxLength alpha scope
       (<["reservedMemoryBytes" := v]> clusterState) now now' st = st'
  /\ refreshLoop_success maxLength alpha scope
       (delete "reservedMemoryBytes" clusterState) now now' st = st'
  /\ (clusterState !! "reservedMemory" = None -> 0 < maxLength ->
      raw = JUndefined
      /\ exists sample,
           last (reservedMemory st') = Some sample
           /\ no_data sample = true
           /\ (reservedMemory st = [] -> sample = JUndefined))
  /\ (requests (run maxLength alpha es) <> [] ->
      reservedMemory
        (hud (step maxLength alpha (run maxLength alpha es)
                (FetchDone clusterState now now')))
      = Utils.addExponentiallyWeightedToHistory maxLength alpha raw
          (reservedMemory (hud (run maxLength alpha es)))).
Proof.
  intros st' raw.
  split; [reflexivity|]. split; [|split; [|split; [|split]]].
  - intros Hpos. subst st'. simpl reservedMemory.
    unfold Utils.addExponentiallyWeightedToHistory.
    destruct (last (reservedMemory st)); apply last_trim_snoc, Hpos.
  - subst st'.
    unfold refreshLoop_success,
      newRowInputRate, newByteInputRate, newPerWorkerCpuTimeRate,
      rowRate, byteRate, perWorkerCpuRate,
      rowsInputSinceRefresh, bytesInputSinceRefresh, cpuTimeSinceRefresh.
    rewrite !prop_insert_ne by discriminate. reflexivity.
  - subst st'.
    assert (Hdel : forall k, k <> "reservedMemoryBytes" ->
               prop (delete "reservedMemoryBytes" clusterState) k = prop clusterState k).
    { intros k Hk. unfold prop. rewrite lookup_delete_ne by congruence. reflexivity. }
    unfold refreshLoop_success,
      newRowInputRate, newByteInputRate, newPerWorkerCpuTimeRate,
      rowRate, byteRate, perWorkerCpuRate,
      rowsInputSinceRefresh, bytesInputSinceRefresh, cpuTimeSinceRefresh.
    rewrite !Hdel by discriminate. reflexivity.
  - intros Hmissing Hpos.
    assert (Hraw : raw = JUndefined).
    { unfold raw, prop. rewrite Hmissing. reflexivity. }
    split; [exact Hraw|]. subst st'. simpl reservedMemory. fold raw. rewrite Hraw.
    apply addExponentiallyWeightedToHistory_undefined, Hpos.
  - intros Hreq. destruct (run_invariant maxLength alpha es) as (_ & Hphase & _).
    destruct Hphase as [Hr _|id Hr _ _]; [|contradiction].
    simpl step. rewrite Hr. reflexivity.
Qed.

End MountedPolls.

Lemma no_rate_without_division_witness :
  let first := run Sample.maxLength Sample.alpha [FetchDone Sample.poll1 0 0; TimerFired 1] in
  let second := step Sample.maxLength Sample.alpha first (FetchDone Sample.poll2 0 0) in
  lastRefresh (hud first) = Some 0%Z
  /\ (0 - 0 <= 0)%Z
  /\ requests first = [initState]
  /\ lastInputRows (hud second) = JNum 1500
  /\ rates_empty (hud second).
Proof.
  destruct (no_rate_without_division Sample.maxLength Sample.alpha
              [FetchDone Sample.poll1 0 0; TimerFired 1] Sample.poll2 0 0)
    as (_ & _ & Hempty & _).
  split; [reflexivity|]. split; [lia|]. split; [reflexivity|].
  split; [reflexivity | exact Hempty].
Defined.

Lemma reserved_memory_field_witness :
  reservedMemory
    (refreshLoop_success Sample.maxLength Sample.alpha initState Sample.poll1 0 0 initState)
  = [JNum 4096]
  /\ Sample.poll_contract !! "reservedMemory" = None
  /\ reservedMemory
       (refreshLoop_success Sample.maxLength Sample.alpha
          initState Sample.poll_contract 0 0 initState)
     = [JUndefined]
  /\ reservedMemory
       (hud (run Sample.maxLength Sample.alpha
               [FetchDone Sample.poll1 0 0; TimerFired 1; FetchDone Sample.poll_contract 1000 1000]))
     = [JNum 4096; JNum nan].
Proof.
  destruct (reserved_memory_field Sample.maxLength Sample.alpha initState initState
              Sample.poll1 0 0 JNull []) as (Hfield & _).
  destruct (reserved_memory_field Sample.maxLength Sample.alpha initState initState
              Sample.poll_contract 0 0 JNull []) as (Hmissing & _).
  destruct (reserved_memory_field Sample.maxLength Sample.alpha initState initState
              Sample.poll_contract 1000 1000 JNull [FetchDone Sample.poll1 0 0; TimerFired 1])
    as (_ & _ & _ & _ & _ & Hrun).
  split; [rewrite Hfield; reflexivity|]. split; [reflexivity|].
  split; [rewrite Hmissing; reflexivity|].
  change (run Sample.maxLength Sample.alpha
            [FetchDone Sample.poll1 0 0; TimerFired 1; FetchDone Sample.poll_contract 1000 1000])
    with (step Sample.maxLength Sample.alpha
            (run Sample.maxLength Sample.alpha [FetchDone Sample.poll1 0 0; TimerFired 1])
            (FetchDone Sample.poll_contract 1000 1000)).
  rewrite Hrun; [reflexivity|]. intros H. vm_compute in H. discriminate H.
Defined.

(** C1, on the scenario of the specification: a first poll answered at time 0
    with 1000 input rows, a second poll answered at time 1000 with 1500.
    When the second response arrives the state records the first snapshot
    as the previous one, and the row and byte rates against it are 500 and
    200000.  The callback that handles the response closed over the first
    render, where there is no previous snapshot: the poll is handled, the
    new baseline is stored, and the row and byte rate series are left
    empty, so that no rate is emitted. *)
Theorem second_poll_computes_no_rate :
  let first := run Sample.maxLength Sample.alpha [FetchDone Sample.poll1 0 0; TimerFired 1] in
  let second := step Sample.maxLength Sample.alpha first (FetchDone Sample.poll2 1000 1000) in
  requests first = [initState]
  /\ lastRefresh (hud first) = Some 0%Z
  /\ lastInputRows (hud first) = JNum 1000
  /\ prop Sample.poll2 "totalInputRows" = JNum 1500
  /\ rowRate (hud first) Sample.poll2 0 1000 = 500%float
  /\ byteRate (hud first) Sample.poll2 0 1000 = 200000%float
  /\ newRowInputRate Sample.maxLength Sample.alpha (hud first) Sample.poll2 1000 = [JNum 500]
  /\ lastRefresh (hud second) = Some 1000%Z
  /\ lastInputRows (hud second) = JNum 1500
  /\ rowInputRate (hud second) = []
  /\ byteInputRate (hud second) = []
  /\ latest (rowInputRate (hud second)) = JUndefined.
Proof. repeat split; vm_compute; reflexivity. Qed.

(** C2, on a second poll answered while no worker is registered: the
    per-worker series is empty before the poll and empty after it, as
    specified, but the other rates are not computed.  The state records
    the first snapshot as the previous one, against which the row and byte
    rates are 500 and 200000; the callback that handles the response
    closed over the first render and leaves the row and byte rate series
    empty. *)
Theorem zero_worker_poll_computes_no_rate :
  let first := run Sample.maxLength Sample.alpha [FetchDone Sample.poll1 0 0; TimerFired 1] in
  let second :=
    step Sample.maxLength Sample.alpha first (FetchDone Sample.poll2_no_workers 1000 1000) in
  requests first = [initState]
  /\ lastRefresh (hud first) = Some 0%Z
  /\ prop Sample.poll2_no_workers "activeWorkers" = JNum 0
  /\ perWorkerCpuTimeRate (hud first) = []
  /\ perWorkerCpuTimeRate (hud second) = []
  /\ rowRate (hud first) Sample.poll2_no_workers 0 1000 = 500%float
  /\ byteRate (hud first) Sample.poll2_no_workers 0 1000 = 200000%float
  /\ activeWorkers (hud second) = [JNum 2; JNum 0]
  /\ lastCpuTime (hud second) = JNum 12
  /\ rowInputRate (hud second) = []
  /\ byteInputRate (hud second) = [].
Proof. repeat split; vm_compute; reflexivity. Qed.
